(** * The singleton exercise: [is_singleton] and its test

    Source: [02_Creational_Patterns/singleton_exercise.py].

    The function under study compares two produced references with
    Python's [is], so the model needs object identity: values live in a
    heap and are handled through their locations.  Everything a producer
    can do (allocate, mutate, raise) is a function on that heap; what
    [is_singleton] itself does is recorded in a trace on top of it. *)

From stdpp Require Import gmap list fin_maps strings.
From Stdlib Require Import ZArith.

(** ** Host language: objects, heap, outcomes *)

Module Py.

(** A location is the identity of an object (what [id] returns). *)
Abbreviation loc := nat (only parsing).

(** The exceptions that occur.  [SystemError] is the model's answer to a
    reference that points to nothing, which Python itself never
    produces. *)
Inductive exn : Type :=
| RecursionError
| TypeError
| AssertionError
| SystemError
| UserError (name : string).

(** A statement either completes with a value or raises. *)
Inductive outcome (A : Type) : Type :=
| Ret (a : A)
| Raise (e : exn).
Arguments Ret {A} a.
Arguments Raise {A} e.

(** What the [__eq__] of a class answers for [self] and [other]:
    [Some b] for a truth value, [None] for [NotImplemented]; it may
    raise. *)
Definition eq_method : Type := loc → loc → outcome (option bool).

(** The objects: integers, lists of references, and instances of
    classes written by the user.  An instance carries no attributes;
    what sets its class apart is the [__eq__] it defines, if any
    ([None]: the class inherits [object.__eq__]). *)
Inductive pyobj : Type :=
| PyInt (n : Z)
| PyList (items : list loc)
| PyInstance (eq : option eq_method).

Abbreviation heap := (gmap loc pyobj) (only parsing).

(** Memo table of [copy.deepcopy]: original location to its copy. *)
Abbreviation memo := (gmap loc loc) (only parsing).

Definition outcome_map {A B} (f : A → B) (o : outcome A) : outcome B :=
  match o with
  | Ret a => Ret (f a)
  | Raise e => Raise e
  end.

(** Code that runs inside a producer: heap in, outcome and heap out.
    The heap is returned on a raise as well: effects made before an
    exception stay. *)
Definition comp (A : Type) : Type := heap → outcome A * heap.

Definition comp_ret {A} (a : A) : comp A := λ h, (Ret a, h).

Definition comp_bind {A B} (c : comp A) (k : A → comp B) : comp B :=
  λ h, match c h with
       | (Ret a, h') => k a h'
       | (Raise e, h') => (Raise e, h')
       end.

(** What can be passed as [factory]: an object with a call body, or an
    object without one. *)
Inductive callee : Type :=
| Callable (body : comp loc)
| NonCallable (obj : loc).

(** What the code under study does to its values: one entry per call
    it makes, with the outcome of the call, and one entry per [==] it
    evaluates, which hands the two values to the [__eq__] of their
    types. *)
Inductive event : Type :=
| EvCall (o : outcome loc)
| EvCompare (x y : loc).

Record state : Type := State {
  st_heap : heap;
  st_trace : list event
}.

(** Code of the module under study. *)
Definition py (A : Type) : Type := state → outcome A * state.

#[global] Instance py_ret : MRet py := λ A a s, (Ret a, s).

#[global] Instance py_bind : MBind py := λ A B k c s,
  match c s with
  | (Ret a, s') => k a s'
  | (Raise e, s') => (Raise e, s')
  end.

Definition raise {A} (e : exn) : py A := λ s, (Raise e, s).

(** Run producer-level code from the module: the trace is untouched. *)
Definition lift {A} (c : comp A) : py A := λ s,
  let '(o, h) := c (st_heap s) in (o, State h (st_trace s)).

(** [f()]: run the body on the current heap and log the call; calling
    an object that has no body raises [TypeError] without running
    anything. *)
Definition call (f : callee) : py loc := λ s,
  match f with
  | Callable body =>
      let '(o, h) := body (st_heap s) in
      (o, State h (st_trace s ++ [EvCall o]))
  | NonCallable _ => (Raise TypeError, s)
  end.

(** [x is y]: comparison of the two identities; reads no object. *)
Definition py_is (x y : loc) : py bool := mret (bool_decide (x = y)).

(** Allocation of a new object at an unused location. *)
Definition alloc (o : pyobj) : comp loc := λ h,
  let l := fresh (dom h) in (Ret l, <[l := o]> h).

(** One cell per integer of a display; the identity of the integers
    plays no part in the exercise. *)
Fixpoint alloc_ints (zs : list Z) : comp (list loc) :=
  match zs with
  | [] => comp_ret []
  | z :: rest =>
      comp_bind (alloc (PyInt z)) (λ l,
      comp_bind (alloc_ints rest) (λ ls, comp_ret (l :: ls)))
  end.

(** The list display [[z1, ..., zn]]. *)
Definition new_list (zs : list Z) : comp loc :=
  comp_bind (alloc_ints zs) (λ ls, alloc (PyList ls)).

(** [y.append(c)] *)
Definition list_append (y c : loc) (h : heap) : heap :=
  match h !! y with
  | Some (PyList items) => <[y := PyList (items ++ [c])]> h
  | _ => h
  end.

(** *** [copy.deepcopy] on integers and lists *)

(** Modelled from the spec: [copy.deepcopy] is imported from Python's
    standard library, its code is not part of the repository.  The spec
    describes a deep copy that constructs a fresh, isolated instance
    from an existing one on each call.  The model follows the library's
    algorithm on the objects at hand: an integer is atomic and is
    returned as it is; a list gets a new empty list, registered in the
    memo before its items are copied and appended one by one; an
    instance is rebuilt as a new instance of its class and registered
    in the memo; an object found in the memo is not copied again.
    [depth] is the interpreter's remaining recursion depth: one unit
    per nesting level, [RecursionError] when it is used up. *)
Fixpoint copy_items (rec : loc → memo → heap → outcome (loc * memo) * heap)
    (items : list loc) (y : loc) (m : memo) (h : heap)
    : outcome memo * heap :=
  match items with
  | [] => (Ret m, h)
  | a :: rest =>
      match rec a m h with
      | (Ret (c, m'), h') => copy_items rec rest y m' (list_append y c h')
      | (Raise e, h') => (Raise e, h')
      end
  end.

Fixpoint deepcopy_rec (depth : nat) (x : loc) (m : memo) (h : heap)
    : outcome (loc * memo) * heap :=
  match depth with
  | 0 => (Raise RecursionError, h)
  | S d =>
      match m !! x with
      | Some y => (Ret (y, m), h)
      | None =>
          match h !! x with
          | None => (Raise SystemError, h)
          | Some (PyInt _) => (Ret (x, m), h)
          | Some (PyInstance eq) =>
              let y := fresh (dom h) in
              (Ret (y, <[x := y]> m), <[y := PyInstance eq]> h)
          | Some (PyList items) =>
              let y := fresh (dom h) in
              match copy_items (deepcopy_rec d) items y
                      (<[x := y]> m) (<[y := PyList []]> h) with
              | (Ret m', h') => (Ret (y, m'), h')
              | (Raise e, h') => (Raise e, h')
              end
          end
      end
  end.

(** [deepcopy(x)]: a new memo for every top-level call. *)
Definition deepcopy (depth : nat) (x : loc) : comp loc := λ h,
  let '(o, h') := deepcopy_rec depth x ∅ h in (outcome_map fst o, h').

(** *** [x == y] *)

(** Python's value equality, which the module does not use; it serves
    to say that two objects are equal by value.  [x == y] asks the
    [__eq__] of [x]'s type, then, on [NotImplemented], the [__eq__] of
    [y]'s type with the operands swapped, and falls back on identity
    when both decline.  Integers compare by value with integers; lists
    compare with lists by length, then item by item, identical items
    counting as equal without a further comparison; an instance
    answers what its class's [__eq__] answers, [object.__eq__]
    accepting the object itself and declining anything else.  Nested
    comparisons use up recursion depth. *)
Fixpoint items_eq (rec : loc → loc → outcome bool) (xs ys : list loc)
    : outcome bool :=
  match xs, ys with
  | [], [] => Ret true
  | a :: xs', b :: ys' =>
      if decide (a = b) then items_eq rec xs' ys'
      else match rec a b with
           | Ret true => items_eq rec xs' ys'
           | Ret false => Ret false
           | Raise e => Raise e
           end
  | _, _ => Ret false
  end.

(** [type(self).__eq__(self, other)] *)
Definition slot_eq (rec : loc → loc → outcome bool)
    (self_obj other_obj : pyobj) (self other : loc)
    : outcome (option bool) :=
  match self_obj with
  | PyInt a =>
      match other_obj with
      | PyInt b => Ret (Some (bool_decide (a = b)))
      | _ => Ret None
      end
  | PyList xs =>
      match other_obj with
      | PyList ys =>
          if decide (length xs = length ys)
          then outcome_map Some (items_eq rec xs ys)
          else Ret (Some false)
      | _ => Ret None
      end
  | PyInstance (Some m) => m self other
  | PyInstance None =>
      if decide (self = other) then Ret (Some true) else Ret None
  end.

Fixpoint py_eq (depth : nat) (h : heap) (x y : loc) : outcome bool :=
  match depth with
  | 0 => Raise RecursionError
  | S d =>
      match h !! x, h !! y with
      | Some ox, Some oy =>
          match slot_eq (py_eq d h) ox oy x y with
          | Ret (Some b) => Ret b
          | Ret None =>
              match slot_eq (py_eq d h) oy ox y x with
              | Ret (Some b) => Ret b
              | Ret None => Ret (bool_decide (x = y))
              | Raise e => Raise e
              end
          | Raise e => Raise e
          end
      | _, _ => Raise SystemError
      end
  end.

(** [x == y] evaluated by the module: the comparison is logged and the
    answer is the one of [py_eq]. *)
Definition py_eq_op (depth : nat) (x y : loc) : py bool := λ s,
  (py_eq depth (st_heap s) x y,
   State (st_heap s) (st_trace s ++ [EvCompare x y])).

End Py.

Import Py.

(** ** The module [singleton_exercise] *)

(** [def is_singleton(factory)] *)
Definition is_singleton (factory : callee) : py bool :=
  x ← call factory;
  y ← call factory;
  py_is x y.

(** [unittest]'s assertions on a boolean. *)
Definition assertTrue (b : bool) : py unit :=
  if b then mret () else raise AssertionError.

Definition assertFalse (b : bool) : py unit :=
  if b then raise AssertionError else mret ().

(** [lambda: obj] *)
Definition const_factory (obj : loc) : callee :=
  Callable (λ h, (Ret obj, h)).

(** [lambda: deepcopy(obj)] *)
Definition deepcopy_factory (depth : nat) (obj : loc) : callee :=
  Callable (deepcopy depth obj).

(** [Evaluate.test_exercise].  [depth] is the recursion depth left to
    [deepcopy] when the second producer calls it; the calls that the
    test makes itself are taken to have room. *)
Definition test_exercise (depth : nat) : py unit :=
  obj ← lift (new_list [1; 2; 3]%Z);
  r1 ← is_singleton (const_factory obj);
  _ ← assertTrue r1;
  r2 ← is_singleton (deepcopy_factory depth obj);
  assertFalse r2.

Definition empty_state : state := State ∅ [].

(** ** Notions used in the statements *)

(** Number of calls logged while [c] runs from [s]. *)
Definition calls_made {A} (c : py A) (s : state) : nat :=
  length (st_trace (c s).2) - length (st_trace s).

(** [n] checks of the same producer, one after the other. *)
Fixpoint repeat_check (n : nat) (f : callee) : py (list bool) :=
  match n with
  | 0 => mret []
  | S k =>
      b ← is_singleton f;
      bs ← repeat_check k f;
      mret (b :: bs)
  end.

(** The check as it would read with [==] in place of [is].  It is not
    part of the module; it shows what evaluating a value comparison
    adds to a run. *)
Definition eq_check (depth : nat) (factory : callee) : py bool :=
  x ← call factory;
  y ← call factory;
  py_eq_op depth x y.

(** The body run twice in a row, the second run only if the first
    returned. *)
Definition twice (body : comp loc) : comp loc :=
  comp_bind body (λ _, body).

Definition is_list (o : pyobj) : bool :=
  match o with
  | PyList _ => true
  | PyInt _ | PyInstance _ => false
  end.

(** Every reference stored in a list points into the heap. *)
Definition heap_closed (h : heap) : Prop :=
  map_Forall (λ _ o,
    match o with
    | PyList items => Forall (λ a, is_Some (h !! a)) items
    | PyInt _ | PyInstance _ => True
    end) h.

(** The locations of [h] that hold a list. *)
Definition lists_of (h : heap) : gset loc :=
  dom (filter (λ p, is_list p.2 = true) h).

#[global] Instance heap_closed_dec (h : heap) : Decision (heap_closed h).
Proof.
  apply map_Forall_dec. intros l [n|items|eq]; apply _.
Defined.

(** Lists of [h0] that a copy in progress has not registered in its
    memo yet. *)
Definition pending (h0 : heap) (m : memo) : nat :=
  size (lists_of h0 ∖ dom m).

(** *** Sample producers and states *)

(** A producer that raises on every call. *)
Definition failing_factory : callee :=
  Callable (λ h, (Raise (UserError "boom"), h)).

(** A producer that hands out the same list and appends the list to
    itself on every call. *)
Definition growing_body (obj : loc) : comp loc :=
  λ h, (Ret obj, list_append obj obj h).

Definition growing_factory (obj : loc) : callee :=
  Callable (growing_body obj).

(** A producer that builds a new list holding itself:
    [x = []; x.append(x); return x]. *)
Definition self_list_body : comp loc :=
  comp_bind (alloc (PyList [])) (λ l h, (Ret l, list_append l l h)).

Definition self_list_factory : callee := Callable self_list_body.

(** The heap after two calls of [self_list_body]: two lists, at [0] and
    [1], each its own only item. *)
Definition self_lists_heap : heap := (twice self_list_body ∅).2.

(** A class whose [__eq__] raises, [class Broken] with
    [def __eq__(self, other): raise ...], and the producer [Broken]
    that builds an instance of it on every call. *)
Definition broken_eq : eq_method := λ _ _, Raise (UserError "eq").

Definition broken_body : comp loc := alloc (PyInstance (Some broken_eq)).

Definition broken_factory : callee := Callable broken_body.

(** The heap after two calls of [broken_body]: two instances, at [0]
    and [1]. *)
Definition broken_heap : heap := (twice broken_body ∅).2.

(** The state of the test after [obj = [1, 2, 3]]; [obj] is at
    [sample_obj]. *)
Definition sample_state : state :=
  (lift (new_list [1; 2; 3]%Z) empty_state).2.

Definition sample_obj : loc := 3.

(** The heap after the two copies made by [lambda: deepcopy(obj)]. *)
Definition sample_copies_heap : heap :=
  (twice (deepcopy 2 sample_obj) (st_heap sample_state)).2.

(** Another state, after [obj = [7, 8]]; [obj] is at [other_obj]. *)
Definition other_state : state :=
  (lift (new_list [7; 8]%Z) empty_state).2.

Definition other_obj : loc := 2.

(** * Properties *)

(** ** Running [is_singleton] *)

Lemma is_singleton_unfold body s :
  is_singleton (Callable body) s =
    match body (st_heap s) with
    | (Ret x, h1) =>
        match body h1 with
        | (Ret y, h2) =>
            (Ret (bool_decide (x = y)),
             State h2 (st_trace s ++ [EvCall (Ret x); EvCall (Ret y)]))
        | (Raise e, h2) =>
            (Raise e, State h2 (st_trace s ++ [EvCall (Ret x); EvCall (Raise e)]))
        end
    | (Raise e, h1) => (Raise e, State h1 (st_trace s ++ [EvCall (Raise e)]))
    end.
Proof.
  unfold is_singleton, mbind, py_bind, call, py_is, mret, py_ret.
  destruct (body (st_heap s)) as [[x|e] h1]; simpl; [|done].
  destruct (body h1) as [[y|e] h2]; simpl; by rewrite <- app_assoc.
Qed.

Lemma is_singleton_returns body s x h1 y h2 :
  body (st_heap s) = (Ret x, h1) →
  body h1 = (Ret y, h2) →
  is_singleton (Callable body) s =
    (Ret (bool_decide (x = y)),
     State h2 (st_trace s ++ [EvCall (Ret x); EvCall (Ret y)])).
Proof. intros H1 H2. by rewrite is_singleton_unfold, H1, H2. Qed.

Lemma is_singleton_non_callable obj s :
  is_singleton (NonCallable obj) s = (Raise TypeError, s).
Proof. done. Qed.


Lemma is_singleton_heap body s :
  st_heap (is_singleton (Callable body) s).2 = (twice body (st_heap s)).2.
Proof.
  rewrite is_singleton_unfold. unfold twice, comp_bind.
  destruct (body (st_heap s)) as [[x|e] h1]; simpl; [|done].
  by destruct (body h1) as [[y|e] h2].
Qed.

Lemma is_singleton_result body s :
  (is_singleton (Callable body) s).1 =
    match body (st_heap s) with
    | (Ret x, h1) =>
        match body h1 with
        | (Ret y, _) => Ret (bool_decide (x = y))
        | (Raise e, _) => Raise e
        end
    | (Raise e, _) => Raise e
    end.
Proof.
  rewrite is_singleton_unfold.
  destruct (body (st_heap s)) as [[x|e] h1]; simpl; [|done].
  by destruct (body h1) as [[y|e] h2].
Qed.

(** ** Identity decides the result *)

(** C1: when the two invocations of the producer return [x] and [y],
    [is_singleton] returns true if [x] and [y] are the same object and
    false otherwise; in particular it returns false for two distinct
    objects that compare equal with [==]. *)
Theorem is_singleton_identity body s x h1 y h2 :
  body (st_heap s) = (Ret x, h1) →
  body h1 = (Ret y, h2) →
  (x = y → (is_singleton (Callable body) s).1 = Ret true)
  ∧ (x ≠ y → (is_singleton (Callable body) s).1 = Ret false)
  ∧ (∀ d, x ≠ y → py_eq d h2 x y = Ret true →
       (is_singleton (Callable body) s).1 = Ret false).
Proof.
  intros H1 H2. rewrite (is_singleton_returns _ _ _ _ _ _ H1 H2). simpl.
  split; [|split].
  - intros ->. by rewrite bool_decide_eq_true_2.
  - intros Hne. by rewrite bool_decide_eq_false_2.
  - intros _ Hne _. by rewrite bool_decide_eq_false_2.
Qed.

(** C2: a producer that returns the same captured object on every call
    is reported as a singleton. *)
Theorem fixed_object_is_singleton body obj s :
  (∀ h, (body h).1 = Ret obj) →
  (is_singleton (Callable body) s).1 = Ret true.
Proof.
  intros Hfix. rewrite is_singleton_result.
  pose proof (Hfix (st_heap s)) as H1.
  destruct (body (st_heap s)) as [o1 h1]. simpl in H1. subst o1.
  pose proof (Hfix h1) as H2.
  destruct (body h1) as [o2 h2]. simpl in H2. subst o2.
  by rewrite bool_decide_eq_true_2.
Qed.

(** ** Invocations *)

(** C4 (amended): [is_singleton] calls its producer first on the heap it
    is given; if that call returns, it calls the producer a second time
    on the heap the first call left, and makes no further call; if the
    first call raises, there is no second call. *)
Theorem is_singleton_calls body s :
  st_trace (is_singleton (Callable body) s).2 =
    st_trace s ++
      match body (st_heap s) with
      | (Ret x, h1) => [EvCall (Ret x); EvCall (body h1).1]
      | (Raise e, _) => [EvCall (Raise e)]
      end
  ∧ calls_made (is_singleton (Callable body)) s =
      match (body (st_heap s)).1 with
      | Ret _ => 2
      | Raise _ => 1
      end.
Proof.
  unfold calls_made. rewrite is_singleton_unfold.
  destruct (body (st_heap s)) as [[x|e] h1]; simpl.
  - destruct (body h1) as [[y|e] h2]; simpl;
      (split; [done|]); rewrite length_app; simpl; lia.
  - split; [done|]. rewrite length_app. simpl. lia.
Qed.

(** C4 as stated fails: a producer that raises is called once. *)
Lemma is_singleton_calls_once_on_raise :
  calls_made (is_singleton failing_factory) empty_state = 1
  ∧ calls_made (is_singleton failing_factory) empty_state ≠ 2.
Proof. split; [reflexivity | discriminate]. Qed.

(** ** Repeated checks *)

(** C5: if on the heaps that can arise (those satisfying [Inv]) any two
    consecutive invocations of the producer stand in the same identity
    relation [b], then every one of [n] repeated checks returns [b]. *)
Theorem is_singleton_idempotent (Inv : heap → Prop) body b :
  (∀ h, Inv h → Inv (body h).2) →
  (∀ h x h1 y h2, Inv h → body h = (Ret x, h1) → body h1 = (Ret y, h2) →
     bool_decide (x = y) = b) →
  ∀ n s, Inv (st_heap s) →
    (∀ bs s', repeat_check n (Callable body) s = (Ret bs, s') →
       bs = replicate n b)
    ∧ ((∀ h, Inv h → ∃ x, (body h).1 = Ret x) →
       (repeat_check n (Callable body) s).1 = Ret (replicate n b)).
Proof.
  intros Hpres Hdet n. induction n as [|n IH]; intros s Hs.
  { split; [|done]. intros bs s' [= <- <-]. done. }
  cbn [repeat_check]. unfold mbind at 1 3, py_bind at 1 3.
  rewrite is_singleton_unfold.
  pose proof (Hpres _ Hs) as Hs1.
  destruct (body (st_heap s)) as [o1 h1] eqn:E1. simpl in Hs1.
  pose proof (Hpres _ Hs1) as Hs2.
  destruct (body h1) as [o2 h2] eqn:E2. simpl in Hs2.
  split.
  - intros bs s'. destruct o1 as [x|e]; [|done]. destruct o2 as [y|e]; [|done].
    rewrite (Hdet _ _ _ _ _ Hs E1 E2).
    set (s2 := State h2 _). destruct (IH s2 Hs2) as [IH1 _].
    unfold mbind, py_bind.
    destruct (repeat_check n (Callable body) s2) as [[bs'|e] s3] eqn:E3; [|done].
    intros [= <- <-]. simpl. f_equal. by eapply IH1.
  - intros Hret.
    destruct (Hret _ Hs) as [x Hx]. rewrite E1 in Hx. simpl in Hx. subst o1.
    destruct (Hret _ Hs1) as [y Hy]. rewrite E2 in Hy. simpl in Hy. subst o2.
    rewrite (Hdet _ _ _ _ _ Hs E1 E2).
    set (s2 := State h2 _). destruct (IH s2 Hs2) as [_ IH2].
    specialize (IH2 Hret). unfold mbind, py_bind.
    destruct (repeat_check n (Callable body) s2) as [o3 s3]. simpl in IH2.
    by subst o3.
Qed.

(** ** Failures *)

(** C6: a check of a callable producer raises [e] exactly when one of
    the two invocations of the producer raises [e]: the first one, or
    the second one after the first returned.  The exception is the
    producer's own, and nothing else makes the check raise. *)
Theorem is_singleton_failure body s e :
  (is_singleton (Callable body) s).1 = Raise e ↔
    (body (st_heap s)).1 = Raise e
    ∨ ∃ x h1, body (st_heap s) = (Ret x, h1) ∧ (body h1).1 = Raise e.
Proof.
  rewrite is_singleton_result.
  destruct (body (st_heap s)) as [[x|e1] h1] eqn:E1; simpl.
  - destruct (body h1) as [[y|e2] h2] eqn:E2; simpl.
    + split; [done|]. intros [?|(x' & h1' & [= <- <-] & Hr)]; [done|].
      by rewrite E2 in Hr.
    + split.
      * intros [= ->]. right. exists x, h1. by rewrite E2.
      * intros [?|(x' & h1' & [= <- <-] & Hr)]; [done|].
        rewrite E2 in Hr. simpl in Hr. by injection Hr as ->.
  - split; [intros [= ->]; by left|].
    by intros [[= ->]|(x' & h1' & ? & _)].
Qed.

(** ** Effects *)

(** C7: the heap after a check is the heap after the two invocations of
    the producer; whatever heap property the producer preserves, the
    check preserves; and the result and the heap effect of a check do
    not depend on the calls logged before it. *)
Theorem is_singleton_frame body s :
  st_heap (is_singleton (Callable body) s).2 = (twice body (st_heap s)).2
  ∧ (∀ P : heap → Prop,
       (∀ h, P h → P (body h).2) →
       P (st_heap s) → P (st_heap (is_singleton (Callable body) s).2))
  ∧ (∀ t,
       (is_singleton (Callable body) (State (st_heap s) t)).1 =
         (is_singleton (Callable body) s).1
       ∧ st_heap (is_singleton (Callable body) (State (st_heap s) t)).2 =
           st_heap (is_singleton (Callable body) s).2).
Proof.
  split; [apply is_singleton_heap|]. split.
  - intros P HP Hs. rewrite is_singleton_heap. unfold twice, comp_bind.
    pose proof (HP _ Hs) as H1.
    destruct (body (st_heap s)) as [[x|e] h1]; simpl in *; [|done].
    pose proof (HP _ H1) as H2.
    by destruct (body h1) as [[y|e] h2].
  - intros t. by rewrite !is_singleton_result, !is_singleton_heap.
Qed.

(** ** Totality of the comparison *)

(** C8: when the two invocations return [x] and [y], the check returns
    the boolean that tells whether [x] and [y] are the same object,
    leaves the heap as the second invocation left it, and evaluates no
    value comparison: its log gains the two calls and no [==].  This
    holds whatever objects the heap holds at [x] and [y], of whatever
    class, and also where [x == y] raises. *)
Theorem is_singleton_total body s x h1 y h2 :
  body (st_heap s) = (Ret x, h1) →
  body h1 = (Ret y, h2) →
  is_singleton (Callable body) s =
    (Ret (bool_decide (x = y)),
     State h2 (st_trace s ++ [EvCall (Ret x); EvCall (Ret y)]))
  ∧ (∀ a b, EvCompare a b ∈ st_trace (is_singleton (Callable body) s).2 →
       EvCompare a b ∈ st_trace s)
  ∧ (∀ d e, py_eq d h2 x y = Raise e →
       (is_singleton (Callable body) s).1 = Ret (bool_decide (x = y))).
Proof.
  intros H1 H2. rewrite (is_singleton_returns _ _ _ _ _ _ H1 H2). simpl.
  split; [done|]. split; [|done].
  intros a b [Hin|Hin]%elem_of_app; [done|].
  apply elem_of_cons in Hin as [Hin|Hin]; [discriminate|].
  apply elem_of_cons in Hin as [Hin|Hin]; [discriminate|].
  by apply elem_of_nil in Hin.
Qed.

(** ** Contents do not matter *)

(** C9: two producers, run on any two states, whose pairs of produced
    references stand in the same identity relation get the same answer,
    whatever the heaps hold and however the producers change them. *)
Theorem is_singleton_content_insensitive
    body1 body2 s1 s2 x1 y1 x2 y2 h1 h1' h2 h2' :
  body1 (st_heap s1) = (Ret x1, h1) → body1 h1 = (Ret y1, h1') →
  body2 (st_heap s2) = (Ret x2, h2) → body2 h2 = (Ret y2, h2') →
  (x1 = y1 ↔ x2 = y2) →
  (is_singleton (Callable body1) s1).1 = (is_singleton (Callable body2) s2).1.
Proof.
  intros Ha Hb Hc Hd Hiff.
  rewrite (is_singleton_returns _ _ _ _ _ _ Ha Hb).
  rewrite (is_singleton_returns _ _ _ _ _ _ Hc Hd). simpl.
  f_equal. by apply bool_decide_ext.
Qed.

(** ** [deepcopy] returns a new list *)

Lemma elem_of_lists_of (h : heap) (l : loc) :
  l ∈ lists_of h ↔ ∃ items, h !! l = Some (PyList items).
Proof.
  unfold lists_of. rewrite elem_of_dom. split.
  - intros [o Ho]. apply map_lookup_filter_Some in Ho as [Ho Hl].
    destruct o as [n|items|eq]; [done| |done]. by exists items.
  - intros [items Hl]. exists (PyList items).
    by apply map_lookup_filter_Some.
Qed.

Lemma heap_closed_items (h : heap) (l : loc) items a :
  heap_closed h → h !! l = Some (PyList items) → a ∈ items → a ∈ dom h.
Proof.
  intros Hc Hl Ha. specialize (Hc l _ Hl). simpl in Hc.
  rewrite Forall_forall in Hc. apply elem_of_dom. by apply Hc.
Qed.

Lemma pending_empty (h0 : heap) : pending h0 ∅ = size (lists_of h0).
Proof. unfold pending. by rewrite dom_empty_L, difference_empty_L. Qed.

Lemma pending_mono (h0 : heap) (m m' : memo) :
  dom m ⊆ dom m' → pending h0 m' ≤ pending h0 m.
Proof. intros Hm. by apply subseteq_size, difference_mono_l. Qed.

Lemma pending_insert (h0 : heap) (m : memo) (x y : loc) :
  x ∈ lists_of h0 → m !! x = None →
  pending h0 (<[x := y]> m) < pending h0 m.
Proof.
  intros Hx Hm. apply subset_size. rewrite dom_insert_L. split.
  - apply difference_mono_l, union_subseteq_r.
  - intros Hsub. specialize (Hsub x).
    rewrite !elem_of_difference, elem_of_union, elem_of_singleton in Hsub.
    destruct Hsub as [_ Hn]; [by rewrite not_elem_of_dom|].
    apply Hn. by left.
Qed.

Lemma list_append_lookup (h : heap) (y c : loc) items :
  h !! y = Some (PyList items) →
  list_append y c h !! y = Some (PyList (items ++ [c])).
Proof. intros Hy. unfold list_append. rewrite Hy. apply lookup_insert_eq. Qed.

Lemma list_append_above (hb h : heap) (y c : loc) :
  hb ⊆ h → y ∉ dom hb → hb ⊆ list_append y c h.
Proof.
  intros Hsub Hy. unfold list_append.
  destruct (h !! y) as [[n|items|eq]|]; try done.
  apply map_subseteq_spec. intros l o Hl.
  rewrite lookup_insert_ne; [by eapply lookup_weaken|].
  intros ->. apply Hy, elem_of_dom. by exists o.
Qed.

Lemma insert_fresh_above (h : heap) (o : pyobj) :
  h ⊆ <[fresh (dom h) := o]> h.
Proof. apply insert_subseteq, not_elem_of_dom, is_fresh. Qed.

Section deepcopy_returns.
Context (h0 : heap) (Hclosed : heap_closed h0).

Lemma copy_items_returns d :
  (∀ x m h, h0 ⊆ h → x ∈ dom h0 → pending h0 m < d →
     ∃ y m' h', deepcopy_rec d x m h = (Ret (y, m'), h')
       ∧ h ⊆ h' ∧ dom m ⊆ dom m') →
  ∀ items y m h hb,
    Forall (λ a, a ∈ dom h0) items →
    h0 ⊆ hb → hb ⊆ h → y ∉ dom hb →
    (∃ l, h !! y = Some (PyList l)) →
    pending h0 m < d →
    ∃ m' h', copy_items (deepcopy_rec d) items y m h = (Ret m', h')
      ∧ hb ⊆ h' ∧ dom m ⊆ dom m' ∧ ∃ l, h' !! y = Some (PyList l).
Proof.
  intros IHd items. induction items as [|a rest IH];
    intros y m h hb Hitems H0 Hb Hy Hl Hm; simpl.
  { by exists m, h. }
  apply Forall_cons in Hitems as [Ha Hrest].
  destruct (IHd a m h) as (c & m1 & h1 & -> & Hh1 & Hm1); [by etrans|done|done|].
  destruct Hl as [l Hl]. pose proof (lookup_weaken _ _ _ _ Hl Hh1) as Hl1.
  destruct (IH y m1 (list_append y c h1) hb) as (m2 & h2 & -> & Hh2 & Hm2 & Hl2);
    [done|done| |done| | |].
  - apply list_append_above; [by etrans|done].
  - eexists. by apply list_append_lookup.
  - eapply Nat.le_lt_trans; [by apply pending_mono|done].
  - exists m2, h2. split; [done|]. split; [done|]. split; [by etrans|done].
Qed.

Lemma deepcopy_rec_returns depth : ∀ x m h,
  h0 ⊆ h → x ∈ dom h0 → pending h0 m < depth →
  ∃ y m' h', deepcopy_rec depth x m h = (Ret (y, m'), h')
    ∧ h ⊆ h' ∧ dom m ⊆ dom m'
    ∧ (m !! x = None → x ∈ lists_of h0 → y = fresh (dom h) ∧ y ∈ dom h').
Proof.
  induction depth as [|d IHd]; intros x m h H0 Hx Hm; [lia|]. simpl.
  destruct (m !! x) as [y|] eqn:Emx.
  { exists y, m, h. by repeat split. }
  apply elem_of_dom in Hx as [o Ho].
  rewrite (lookup_weaken _ _ _ _ Ho H0).
  destruct o as [n|items|eq].
  { exists x, m, h. split; [done|]. split; [done|]. split; [done|].
    intros _ [items Hi]%elem_of_lists_of. congruence. }
  2:{ eexists _, _, _. split; [done|]. split; [apply insert_fresh_above|].
      split.
      - rewrite dom_insert_L. apply union_subseteq_r.
      - intros _ [items Hi]%elem_of_lists_of. congruence. }
  assert (Hxl : x ∈ lists_of h0) by (apply elem_of_lists_of; eauto).
  destruct (copy_items_returns d) with (items := items) (y := fresh (dom h))
    (m := <[x := fresh (dom h)]> m) (h := <[fresh (dom h) := PyList []]> h) (hb := h)
    as (m' & h' & -> & Hh' & Hm' & [l Hl]).
  - intros x' m0 h1 Ha Hb Hc.
    destruct (IHd x' m0 h1 Ha Hb Hc) as (y' & m1 & h2 & ? & ? & ? & _). eauto 10.
  - apply Forall_forall. intros a Ha. by eapply heap_closed_items.
  - done.
  - apply insert_fresh_above.
  - apply is_fresh.
  - eexists. apply lookup_insert_eq.
  - pose proof (pending_insert h0 m x (fresh (dom h)) Hxl Emx). lia.
  - exists (fresh (dom h)), m', h'. split; [done|]. split; [done|]. split.
    + rewrite dom_insert_L in Hm'. etrans; [apply union_subseteq_r|done].
    + intros _ _. split; [done|]. apply elem_of_dom. eauto.
Qed.

End deepcopy_returns.

Lemma deepcopy_returns_fresh (h0 : heap) depth obj items (h : heap) :
  heap_closed h0 → h0 ⊆ h → h0 !! obj = Some (PyList items) →
  size (lists_of h0) < depth →
  ∃ h', deepcopy depth obj h = (Ret (fresh (dom h)), h')
    ∧ h ⊆ h' ∧ fresh (dom h) ∈ dom h'.
Proof.
  intros Hc Hsub Hobj Hd. unfold deepcopy.
  destruct (deepcopy_rec_returns h0 Hc depth obj ∅ h)
    as (y & m' & h' & -> & Hh' & _ & Hy); [done| |by rewrite pending_empty|].
  { apply elem_of_dom. eauto. }
  destruct Hy as [-> Hy]; [apply lookup_empty|apply elem_of_lists_of; eauto|].
  by exists h'.
Qed.

Lemma deepcopy_twice_distinct (h0 : heap) depth obj items (h : heap) :
  heap_closed h0 → h0 ⊆ h → h0 !! obj = Some (PyList items) →
  size (lists_of h0) < depth →
  ∃ x h1 y h2,
    deepcopy depth obj h = (Ret x, h1) ∧ deepcopy depth obj h1 = (Ret y, h2)
    ∧ x ≠ y.
Proof.
  intros Hc Hsub Hobj Hd.
  destruct (deepcopy_returns_fresh h0 depth obj items h)
    as (h1 & E1 & Hh1 & Hx); [done..|].
  destruct (deepcopy_returns_fresh h0 depth obj items h1)
    as (h2 & E2 & _ & _); [done|by etrans|done..|].
  exists (fresh (dom h)), h1, (fresh (dom h1)), h2.
  split; [done|]. split; [done|].
  intros Heq. rewrite Heq in Hx. by apply is_fresh in Hx.
Qed.

(** C3: a producer that deep-copies a list on each call is not reported
    as a singleton.  The list sits in a closed part [h0] of the heap,
    and the recursion depth exceeds the number of lists in that part, so
    that each copy completes. *)
Theorem deepcopy_factory_not_singleton (h0 : heap) depth obj items s :
  heap_closed h0 → h0 ⊆ st_heap s → h0 !! obj = Some (PyList items) →
  size (lists_of h0) < depth →
  (is_singleton (deepcopy_factory depth obj) s).1 = Ret false.
Proof.
  intros Hc Hsub Hobj Hd.
  destruct (deepcopy_twice_distinct h0 depth obj items (st_heap s))
    as (x & h1 & y & h2 & E1 & E2 & Hne); [done..|].
  unfold deepcopy_factory.
  rewrite (is_singleton_returns _ _ _ _ _ _ E1 E2). simpl.
  by rewrite bool_decide_eq_false_2.
Qed.

(** An integer is atomic for [deepcopy]: the copy is the object itself,
    and the check answers true. *)
Remark deepcopy_int_is_singleton depth obj n s :
  st_heap s !! obj = Some (PyInt n) →
  (is_singleton (deepcopy_factory (S depth) obj) s).1 = Ret true.
Proof.
  intros Hobj. unfold deepcopy_factory. rewrite is_singleton_result.
  unfold deepcopy. simpl. rewrite lookup_empty, Hobj. simpl.
  rewrite Hobj. simpl. by rewrite bool_decide_eq_true_2.
Qed.

(** ** The test *)

Example new_list_sample :
  lift (new_list [1; 2; 3]%Z) empty_state = (Ret sample_obj, sample_state).
Proof. by vm_compute. Qed.

Lemma alloc_ints_returns zs : ∀ h : heap,
  ∃ ls h', alloc_ints zs h = (Ret ls, h') ∧ h ⊆ h'
    ∧ Forall (λ l, ∃ z, h' !! l = Some (PyInt z)) ls.
Proof.
  induction zs as [|z rest IH]; intros h; simpl.
  { by exists [], h. }
  unfold comp_bind, alloc at 1.
  destruct (IH (<[fresh (dom h) := PyInt z]> h)) as (ls & h' & -> & Hsub & Hls).
  exists (fresh (dom h) :: ls), h'. split; [done|]. split.
  - etrans; [apply insert_fresh_above|done].
  - constructor; [|done]. exists z.
    eapply lookup_weaken; [apply lookup_insert_eq|done].
Qed.

(** A list display yields a list that is new, whose items are integers,
    and that forms, with its items, a closed part of the heap holding
    one list. *)
Lemma new_list_returns zs (h : heap) :
  ∃ obj ls h' (h0 : heap),
    new_list zs h = (Ret obj, h')
    ∧ heap_closed h0 ∧ h0 ⊆ h' ∧ h0 !! obj = Some (PyList ls)
    ∧ size (lists_of h0) = 1.
Proof.
  unfold new_list, comp_bind.
  destruct (alloc_ints_returns zs h) as (ls & h1 & -> & _ & Hls).
  unfold alloc. set (obj := fresh (dom h1)).
  set (h' := <[obj := PyList ls]> h1).
  assert (Hobj : h' !! obj = Some (PyList ls)) by apply lookup_insert_eq.
  assert (Hint : ∀ l, l ∈ ls → ∃ z, h' !! l = Some (PyInt z)).
  { intros l Hl. rewrite Forall_forall in Hls.
    destruct (Hls l Hl) as [z Hz]. exists z.
    eapply lookup_weaken; [exact Hz|apply insert_fresh_above]. }
  set (h0 := filter (λ p, p.1 = obj ∨ p.1 ∈ ls) h').
  exists obj, ls, h', h0. split; [done|].
  assert (H0obj : h0 !! obj = Some (PyList ls)).
  { apply map_lookup_filter_Some. split; [done|by left]. }
  split; [|split; [apply map_filter_subseteq|split; [done|]]].
  - intros l o [Hl Hin]%map_lookup_filter_Some. simpl in Hin.
    destruct o as [n|items|eq]; [done| |done].
    assert (items = ls) as ->.
    { destruct Hin as [->|Hin]; [congruence|].
      destruct (Hint l Hin) as [z Hz]. congruence. }
    apply Forall_forall. intros a Ha. destruct (Hint a Ha) as [z Hz].
    exists (PyInt z). apply map_lookup_filter_Some. split; [done|by right].
  - replace (lists_of h0) with ({[obj]} : gset loc); [apply size_singleton|].
    apply set_eq. intros l. rewrite elem_of_singleton, elem_of_lists_of. split.
    + intros ->. eauto.
    + intros [items [Hl Hin]%map_lookup_filter_Some]. simpl in Hin.
      destruct Hin as [->|Hin]; [done|].
      destruct (Hint l Hin) as [z Hz]. congruence.
Qed.

(** With room for two levels of recursion, both assertions of
    [test_exercise] hold, from every state. *)
Lemma test_exercise_passes depth s :
  2 ≤ depth → (test_exercise depth s).1 = Ret ().
Proof.
  intros Hd. unfold test_exercise, mbind, py_bind, lift.
  destruct (new_list_returns [1; 2; 3]%Z (st_heap s))
    as (obj & ls & h' & h0 & -> & Hc & Hsub & Hobj & Hsize).
  unfold const_factory.
  rewrite (is_singleton_returns _ (State h' (st_trace s)) obj h' obj h');
    [|done..].
  rewrite bool_decide_eq_true_2 by done. simpl.
  set (s1 := State _ _).
  destruct (deepcopy_twice_distinct h0 depth obj ls (st_heap s1))
    as (x & h1 & y & h2 & E1 & E2 & Hne); [done..|lia|].
  unfold deepcopy_factory.
  rewrite (is_singleton_returns _ _ _ _ _ _ E1 E2).
  by rewrite bool_decide_eq_false_2.
Qed.

(** ** [==] can fail where [is] cannot *)

Lemma self_lists_heap_lookup (l : loc) :
  l < 2 → self_lists_heap !! l = Some (PyList [l]).
Proof.
  intros Hl. destruct l as [|[|l]]; [by vm_compute..|lia].
Qed.

(** Comparing the two self-containing lists with [==] uses up any
    recursion depth. *)
Lemma py_eq_self_lists_raises depth :
  py_eq depth self_lists_heap 0 1 = Raise RecursionError.
Proof.
  induction depth as [|d IH]; [done|]. simpl.
  rewrite !self_lists_heap_lookup by lia. simpl. by rewrite IH.
Qed.

(** With [==] in place of [is] the run logs the comparison and answers
    what the [__eq__] of the values answers. *)
Lemma eq_check_returns depth body s x h1 y h2 :
  body (st_heap s) = (Ret x, h1) →
  body h1 = (Ret y, h2) →
  eq_check depth (Callable body) s =
    (py_eq depth h2 x y,
     State h2 (st_trace s ++ [EvCall (Ret x); EvCall (Ret y); EvCompare x y])).
Proof.
  intros H1 H2. unfold eq_check, mbind, py_bind, call, py_eq_op.
  rewrite H1. simpl. rewrite H2. simpl. by rewrite <- !app_assoc.
Qed.

(** On instances of a class whose [__eq__] raises, the check with [==]
    raises where [is_singleton] answers. *)
Lemma eq_check_broken_raises depth s :
  (eq_check (S depth) broken_factory s).1 = Raise (UserError "eq").
Proof.
  set (o := PyInstance (Some broken_eq)).
  set (x := fresh (dom (st_heap s))). set (h1 := <[x := o]> (st_heap s)).
  set (y := fresh (dom h1)).
  assert (Hxy : y ≠ x).
  { intros Heq. pose proof (is_fresh (dom h1)) as Hy. fold y in Hy.
    apply Hy. rewrite Heq. unfold h1. rewrite dom_insert_L.
    apply elem_of_union_l. by apply elem_of_singleton. }
  unfold broken_factory.
  rewrite (eq_check_returns (S depth) broken_body s x h1 y (<[y := o]> h1))
    by reflexivity.
  simpl. rewrite lookup_insert_ne by done. unfold h1 at 1.
  by rewrite !lookup_insert_eq.
Qed.

(** ** Instances *)

Lemma is_singleton_identity_witness :
  4 ≠ 5
  ∧ py_eq 2 sample_copies_heap 4 5 = Ret true
  ∧ (is_singleton (deepcopy_factory 2 sample_obj) sample_state).1 = Ret false.
Proof.
  assert (Hne : 4 ≠ 5) by lia.
  assert (Heq : py_eq 2 sample_copies_heap 4 5 = Ret true) by (vm_compute; reflexivity).
  split; [exact Hne|]. split; [exact Heq|].
  refine (proj2 (proj2 (is_singleton_identity (deepcopy 2 sample_obj) sample_state
    4 (deepcopy 2 sample_obj (st_heap sample_state)).2 5 sample_copies_heap _ _))
    2 Hne Heq).
  - vm_compute. reflexivity.
  - vm_compute. reflexivity.
Defined.

Lemma fixed_object_is_singleton_witness :
  (is_singleton (const_factory sample_obj) sample_state).1 = Ret true.
Proof.
  apply (fixed_object_is_singleton (λ h, (Ret sample_obj, h)) sample_obj).
  intros h. reflexivity.
Defined.

Lemma deepcopy_factory_not_singleton_witness :
  (is_singleton (deepcopy_factory 2 sample_obj) sample_state).1 = Ret false.
Proof.
  apply (deepcopy_factory_not_singleton (st_heap sample_state) 2 sample_obj
           [0; 1; 2] sample_state).
  - apply (bool_decide_unpack _). vm_compute. exact I.
  - reflexivity.
  - vm_compute. reflexivity.
  - vm_compute. lia.
Defined.

Lemma is_singleton_idempotent_witness :
  (repeat_check 3 (const_factory sample_obj) sample_state).1 =
    Ret [true; true; true].
Proof.
  refine (proj2 (is_singleton_idempotent (λ _, True)
    (λ h, (Ret sample_obj, h)) true _ _ 3 sample_state I) _).
  - intros h _. exact I.
  - intros h x h1 y h2 _ [= <- <-] [= <- <-]. reflexivity.
  - intros h _. exists sample_obj. reflexivity.
Defined.

Lemma is_singleton_total_witness :
  py_eq 1 broken_heap 0 1 = Raise (UserError "eq")
  ∧ is_singleton broken_factory empty_state =
      (Ret false, State broken_heap [EvCall (Ret 0); EvCall (Ret 1)]).
Proof.
  split; [vm_compute; reflexivity|].
  refine (proj1 (is_singleton_total broken_body empty_state
    0 (broken_body ∅).2 1 broken_heap _ _)).
  - vm_compute. reflexivity.
  - vm_compute. reflexivity.
Defined.

Lemma is_singleton_content_insensitive_witness :
  (is_singleton (const_factory sample_obj) sample_state).1 =
    (is_singleton (growing_factory other_obj) other_state).1.
Proof.
  refine (is_singleton_content_insensitive
    (λ h, (Ret sample_obj, h)) (growing_body other_obj)
    sample_state other_state sample_obj sample_obj other_obj other_obj
    (st_heap sample_state) (st_heap sample_state)
    (list_append other_obj other_obj (st_heap other_state))
    (list_append other_obj other_obj
       (list_append other_obj other_obj (st_heap other_state)))
    _ _ _ _ _); try reflexivity.
  split; reflexivity.
Defined.

(** * Further properties *)

(** ** [deepcopy] writes to new cells only *)

Lemma copy_items_above
    (rec : loc → memo → heap → outcome (loc * memo) * heap) :
  (∀ x m (h : heap), h ⊆ (rec x m h).2) →
  ∀ items y m (h hb : heap),
    hb ⊆ h → y ∉ dom hb → hb ⊆ (copy_items rec items y m h).2.
Proof.
  intros Hrec items.
  induction items as [|a rest IH]; intros y m h hb Hb Hy; simpl; [done|].
  pose proof (Hrec a m h) as Ha.
  destruct (rec a m h) as [[[c m']|e] h']; simpl in *.
  - apply IH; [|done]. apply list_append_above; [by etrans|done].
  - by etrans.
Qed.

Lemma deepcopy_rec_above depth :
  ∀ x m (h : heap), h ⊆ (deepcopy_rec depth x m h).2.
Proof.
  induction depth as [|d IH]; intros x m h; simpl; [done|].
  destruct (m !! x); [done|].
  destruct (h !! x) as [[n|items|eq]|];
    [done| |apply insert_fresh_above|done].
  pose proof (copy_items_above (deepcopy_rec d) IH items (fresh (dom h))
    (<[x := fresh (dom h)]> m) (<[fresh (dom h) := PyList []]> h) h
    (insert_fresh_above _ _) (is_fresh _)) as Hc.
  by destruct (copy_items _ _ _ _ _) as [[m'|e] h'].
Qed.

Lemma deepcopy_above depth x (h : heap) : h ⊆ (deepcopy depth x h).2.
Proof.
  unfold deepcopy. pose proof (deepcopy_rec_above depth x ∅ h) as Hc.
  by destruct (deepcopy_rec depth x ∅ h) as [o h'].
Qed.

Lemma twice_above (body : comp loc) :
  (∀ h : heap, h ⊆ (body h).2) → ∀ h : heap, h ⊆ (twice body h).2.
Proof.
  intros Hb h. unfold twice, comp_bind.
  pose proof (Hb h) as H1. destruct (body h) as [[x|e] h1]; simpl in *; [|done].
  etrans; [exact H1|apply Hb].
Qed.

(** ** [deepcopy] of a list of integers *)

Lemma copy_items_flat d : ∀ items acc y (m : memo) (h : heap),
  Forall (λ a, m !! a = None ∧ ∃ n, h !! a = Some (PyInt n)) items →
  h !! y = Some (PyList acc) →
  copy_items (deepcopy_rec (S d)) items y m h =
    (Ret m, <[y := PyList (acc ++ items)]> h).
Proof.
  intros items. induction items as [|a rest IH]; intros acc y m h Hit Hy; simpl.
  { by rewrite app_nil_r, insert_id. }
  apply Forall_cons in Hit as [[Hma [n Hn]] Hrest].
  rewrite Hma, Hn.
  assert (Hay : ∀ a' n', h !! a' = Some (PyInt n') → y ≠ a').
  { intros a' n' Ha' ->. congruence. }
  unfold list_append at 1. rewrite Hy.
  rewrite (IH (acc ++ [a]) y m (<[y := PyList (acc ++ [a])]> h)).
  - by rewrite insert_insert_eq, <- app_assoc.
  - eapply Forall_impl; [exact Hrest|]. intros a' [Hm' [n' Hn']].
    split; [done|]. exists n'. rewrite lookup_insert_ne; [done|by eapply Hay].
  - apply lookup_insert_eq.
Qed.

Lemma deepcopy_flat d obj items (h : heap) :
  h !! obj = Some (PyList items) →
  Forall (λ a, ∃ n, h !! a = Some (PyInt n)) items →
  deepcopy (S (S d)) obj h =
    (Ret (fresh (dom h)), <[fresh (dom h) := PyList items]> h).
Proof.
  intros Hobj Hit. unfold deepcopy. simpl. rewrite lookup_empty, Hobj.
  rewrite (copy_items_flat d items [] (fresh (dom h))).
  - simpl. by rewrite insert_insert_eq.
  - eapply Forall_impl; [exact Hit|]. intros a [n Hn]. split.
    + rewrite lookup_insert_ne; [apply lookup_empty|]. intros ->. congruence.
    + exists n. rewrite lookup_insert_ne; [done|]. intros Heq.
      pose proof (is_fresh (dom h)) as Hf. rewrite Heq in Hf.
      apply Hf, elem_of_dom. eauto.
  - apply lookup_insert_eq.
Qed.

(** ** The list display *)

Lemma alloc_ints_shape zs : ∀ h : heap,
  ∃ ls h1, alloc_ints zs h = (Ret ls, h1) ∧ h ⊆ h1
    ∧ Forall2 (λ l z, h1 !! l = Some (PyInt z)) ls zs.
Proof.
  induction zs as [|z rest IH]; intros h; simpl.
  { exists [], h. by repeat split. }
  unfold comp_bind, alloc at 1.
  destruct (IH (<[fresh (dom h) := PyInt z]> h)) as (ls & h1 & -> & Hsub & Hls).
  exists (fresh (dom h) :: ls), h1. split; [done|]. split.
  - etrans; [apply insert_fresh_above|done].
  - constructor; [|done].
    eapply lookup_weaken; [apply lookup_insert_eq|done].
Qed.

Lemma new_list_shape zs (h : heap) :
  ∃ ls h1,
    new_list zs h = (Ret (fresh (dom h1)), <[fresh (dom h1) := PyList ls]> h1)
    ∧ h ⊆ h1 ∧ Forall2 (λ l z, h1 !! l = Some (PyInt z)) ls zs.
Proof.
  destruct (alloc_ints_shape zs h) as (ls & h1 & E & Hsub & Hls).
  exists ls, h1. unfold new_list, comp_bind. by rewrite E.
Qed.

Lemma new_list_above zs (h : heap) : h ⊆ (new_list zs h).2.
Proof.
  destruct (new_list_shape zs h) as (ls & h1 & -> & Hsub & _). simpl.
  etrans; [exact Hsub|apply insert_fresh_above].
Qed.

Lemma items_eq_same rec xs : items_eq rec xs xs = Ret true.
Proof.
  induction xs as [|a xs IH]; simpl; [done|]. by rewrite decide_True.
Qed.

(** ** The test, whatever the recursion depth *)

(** X2: whatever its outcome, the test changes no object that existed
    before it ran. *)
Theorem test_exercise_keeps_heap depth s :
  st_heap s ⊆ st_heap (test_exercise depth s).2.
Proof.
  unfold test_exercise, mbind, py_bind, lift.
  pose proof (new_list_above [1; 2; 3]%Z (st_heap s)) as Hnew.
  destruct (new_list [1; 2; 3]%Z (st_heap s)) as [[obj|e] h']; simpl in Hnew;
    [|done].
  cbv beta iota. cbn [st_heap st_trace]. unfold const_factory.
  rewrite (is_singleton_returns _ (State h' (st_trace s)) obj h' obj h');
    [|done..].
  rewrite bool_decide_eq_true_2 by done. simpl.
  set (s1 := State h' _).
  pose proof (is_singleton_heap (deepcopy depth obj) s1) as Hheap.
  pose proof (twice_above (deepcopy depth obj) (deepcopy_above depth obj) h')
    as Hkeep.
  unfold deepcopy_factory.
  destruct (is_singleton (Callable (deepcopy depth obj)) s1) as [[b|e] s2];
    simpl in *; [destruct b; simpl|]; rewrite Hheap; by etrans.
Qed.

(** ** Producers that allocate *)

(** X3: a producer that returns, on every call, an object that did not
    exist before the call is not reported as a singleton. *)
Theorem allocating_producer_not_singleton body s :
  (∀ h, ∃ x h', body h = (Ret x, h') ∧ (x ∉ dom h) ∧ x ∈ dom h') →
  (is_singleton (Callable body) s).1 = Ret false.
Proof.
  intros Hnew.
  destruct (Hnew (st_heap s)) as (x & h1 & E1 & _ & Hx).
  destruct (Hnew h1) as (y & h2 & E2 & Hy & _).
  rewrite (is_singleton_returns _ _ _ _ _ _ E1 E2). simpl.
  rewrite bool_decide_eq_false_2; [done|]. by intros ->.
Qed.

(** X4: checking [lambda: deepcopy(obj)] for a list [obj] of integers
    answers false and adds exactly two lists to the heap, each with the
    items of [obj] and each equal to [obj] by [==]; nothing else
    changes. *)
Theorem is_singleton_copies_flat_list depth obj items s :
  2 ≤ depth →
  st_heap s !! obj = Some (PyList items) →
  Forall (λ a, ∃ n, st_heap s !! a = Some (PyInt n)) items →
  ∃ y1 y2 h2,
    (y1 ∉ dom (st_heap s)) ∧ (y2 ∉ dom (st_heap s)) ∧ y1 ≠ y2
    ∧ h2 = <[y2 := PyList items]> (<[y1 := PyList items]> (st_heap s))
    ∧ is_singleton (deepcopy_factory depth obj) s =
        (Ret false,
         State h2 (st_trace s ++ [EvCall (Ret y1); EvCall (Ret y2)]))
    ∧ (∀ d, py_eq (S d) h2 y1 obj = Ret true ∧ py_eq (S d) h2 y2 obj = Ret true).
Proof.
  intros Hd Hobj Hit. destruct depth as [|[|d]]; [lia..|].
  set (h := st_heap s) in *.
  set (y1 := fresh (dom h)). set (h1 := <[y1 := PyList items]> h).
  set (y2 := fresh (dom h1)).
  assert (Hy1 : y1 ∉ dom h) by apply is_fresh.
  assert (Hy2 : y2 ∉ dom h1) by apply is_fresh.
  assert (Hsub : h ⊆ h1) by apply insert_fresh_above.
  assert (Hy12 : y1 ≠ y2).
  { intros Heq. apply Hy2. rewrite <- Heq. unfold h1. rewrite dom_insert_L.
    apply elem_of_union_l. by apply elem_of_singleton. }
  assert (Hy2h : y2 ∉ dom h).
  { intros Hin. apply Hy2. unfold h1. rewrite dom_insert_L.
    by apply elem_of_union_r. }
  assert (E1 : deepcopy (S (S d)) obj h = (Ret y1, h1)) by by apply deepcopy_flat.
  assert (E2 : deepcopy (S (S d)) obj h1 = (Ret y2, <[y2 := PyList items]> h1)).
  { apply deepcopy_flat; [by eapply lookup_weaken|].
    eapply Forall_impl; [exact Hit|]. intros a [n Hn]. exists n.
    by eapply lookup_weaken. }
  exists y1, y2, (<[y2 := PyList items]> h1).
  split; [done|]. split; [done|]. split; [done|]. split; [done|]. split.
  - unfold deepcopy_factory. rewrite (is_singleton_returns _ _ _ _ _ _ E1 E2).
    by rewrite bool_decide_eq_false_2.
  - intros d'.
    assert (Ho : (<[y2 := PyList items]> h1) !! obj = Some (PyList items)).
    { eapply lookup_weaken; [|apply insert_fresh_above].
      by eapply lookup_weaken. }
    assert (H1 : (<[y2 := PyList items]> h1) !! y1 = Some (PyList items)).
    { eapply lookup_weaken; [apply lookup_insert_eq|apply insert_fresh_above]. }
    assert (H2 : (<[y2 := PyList items]> h1) !! y2 = Some (PyList items))
      by apply lookup_insert_eq.
    simpl. rewrite Ho, H1, H2. unfold slot_eq.
    rewrite decide_True by done. by rewrite items_eq_same.
Qed.

(** ** Instances of the further properties *)

Lemma allocating_producer_not_singleton_witness :
  (is_singleton (Callable (alloc (PyList []))) empty_state).1 = Ret false.
Proof.
  apply allocating_producer_not_singleton. intros h.
  exists (fresh (dom h)), (<[fresh (dom h) := PyList []]> h).
  split; [reflexivity|]. split; [apply is_fresh|].
  rewrite dom_insert_L. apply elem_of_union_l. by apply elem_of_singleton.
Defined.

Lemma is_singleton_copies_flat_list_witness :
  ∃ y1 y2 h2,
    (y1 ∉ dom (st_heap sample_state)) ∧ (y2 ∉ dom (st_heap sample_state))
    ∧ y1 ≠ y2
    ∧ h2 = <[y2 := PyList [0; 1; 2]]>
             (<[y1 := PyList [0; 1; 2]]> (st_heap sample_state))
    ∧ is_singleton (deepcopy_factory 2 sample_obj) sample_state =
        (Ret false,
         State h2 (st_trace sample_state ++ [EvCall (Ret y1); EvCall (Ret y2)]))
    ∧ (∀ d, py_eq (S d) h2 y1 sample_obj = Ret true
            ∧ py_eq (S d) h2 y2 sample_obj = Ret true).
Proof.
  apply (is_singleton_copies_flat_list 2 sample_obj [0; 1; 2] sample_state).
  - lia.
  - vm_compute. reflexivity.
  - repeat constructor.
    + exists 1%Z. vm_compute. reflexivity.
    + exists 2%Z. vm_compute. reflexivity.
    + exists 3%Z. vm_compute. reflexivity.
Defined.
